(** * urwid_extended: the sorted list walker and the searchable wrapper

    A shallow embedding of [urwid_extended/listbox.py]
    ([SortedFocusListWalker]) and [urwid_extended/wrapper.py]
    ([SearchableWidgetWrapper]), with the properties of the two classes
    stated and proved over it.

    Python objects are mutable; every method is a function from the object
    before the call to the object after it, paired with what the call
    returned or raised. *)

From Stdlib Require Import ZArith.
From stdpp Require Import list sorting strings.

Local Open Scope Z_scope.

(** ** Python values that can be compared

    [sorted], [list.sort] and [add] compare the values returned by the
    sorting key with [<] and [>].  The keys of the doctests are integers and
    tuples of integers; [Comparable] is the interface such values offer: a
    boolean [<] that is a strict total order.  [a > b] is [b < a]. *)

Class Comparable (K : Type) := {
  py_lt : K → K → bool;
  py_lt_irrefl : ∀ a, py_lt a a = false;
  py_lt_trans : ∀ a b c, py_lt a b = true → py_lt b c = true → py_lt a c = true;
  py_lt_total : ∀ a b, py_lt a b = false → py_lt b a = false → a = b
}.

Definition py_gt `{Comparable K} (a b : K) : bool := py_lt b a.

(** [a == b] on comparable values. *)
Definition py_eq `{Comparable K} (a b : K) : bool :=
  negb (py_lt a b) && negb (py_lt b a).

#[export] Program Instance Z_comparable : Comparable Z := {| py_lt := Z.ltb |}.
Next Obligation. intros a. apply Z.ltb_irrefl. Qed.
Next Obligation. intros a b c. rewrite !Z.ltb_lt. lia. Qed.
Next Obligation. intros a b. rewrite !Z.ltb_ge. lia. Qed.

(** Tuples compare lexicographically: the first components that differ
    decide. *)
Definition pair_lt `{Comparable K1, Comparable K2} (a b : K1 * K2) : bool :=
  py_lt a.1 b.1 || (py_eq a.1 b.1 && py_lt a.2 b.2).

#[export] Program Instance pair_comparable `{Comparable K1, Comparable K2} :
  Comparable (K1 * K2) := {| py_lt := pair_lt |}.
Next Obligation.
  intros K1 ? K2 ? [a1 a2]. unfold pair_lt, py_eq; simpl.
  by rewrite !py_lt_irrefl.
Qed.
Next Obligation.
  intros K1 ? K2 ? [a1 a2] [b1 b2] [c1 c2]. unfold pair_lt, py_eq; simpl.
  intros Hab Hbc.
  destruct (py_lt a1 b1) eqn:Hab1, (py_lt b1 c1) eqn:Hbc1; simpl in *.
  - by rewrite (py_lt_trans a1 b1 c1).
  - destruct (py_lt c1 b1) eqn:Hcb1; [done|].
    by rewrite <-(py_lt_total b1 c1), Hab1.
  - destruct (py_lt b1 a1) eqn:Hba1; [done|].
    by rewrite (py_lt_total a1 b1), Hbc1.
  - destruct (py_lt b1 a1) eqn:Hba1, (py_lt c1 b1) eqn:Hcb1; try done.
    rewrite (py_lt_total a1 b1), <-(py_lt_total b1 c1) by done.
    rewrite py_lt_irrefl; simpl in *. by apply (py_lt_trans a2 b2 c2).
Qed.
Next Obligation.
  intros K1 ? K2 ? [a1 a2] [b1 b2]. unfold pair_lt, py_eq; simpl.
  intros [Hab1 Hab2]%orb_false_iff [Hba1 Hba2]%orb_false_iff.
  rewrite Hab1, Hba1 in *. simpl in *.
  f_equal; by apply py_lt_total.
Qed.

(** ** The built-in [sorted] and [list.sort]

    Both sort stably by [key], and keep the sort stable under
    [reverse=True]: the result is in descending order and items with equal
    keys stay in their original order.  [py_sorted] is the insertion sort
    with that behaviour; [py_sorted_perm], [py_sorted_sorted] and
    [py_sorted_stable] below show it has the three properties that fix the
    result of a stable sort. *)

Section Sorting.
Context {A K : Type} `{Comparable K}.
Implicit Types (key : A → K) (reverse : bool) (l : list A).

(** [precedes key reverse y x]: [y] has to come strictly before [x]. *)
Definition precedes key reverse (y x : A) : bool :=
  if reverse then py_lt (key x) (key y) else py_lt (key y) (key x).

Fixpoint sorted_insert key reverse (x : A) l : list A :=
  match l with
  | [] => [x]
  | y :: l' =>
      if precedes key reverse y x
      then y :: sorted_insert key reverse x l'
      else x :: l
  end.

Definition py_sorted key reverse l : list A :=
  foldr (sorted_insert key reverse) [] l.

(** [in_order key reverse a b]: the key of [a] is not worse than the key
    of [b], so [a] may stand immediately before [b]. *)
Definition in_order key reverse (a b : A) : Prop :=
  precedes key reverse b a = false.

(** The sort invariant: every adjacent pair is in order. *)
Definition sorted_by key reverse l : Prop := Sorted (in_order key reverse) l.
End Sorting.

(** ** What a call does besides changing the object *)

Inductive exn := NotImplementedError | IndexError | ValueError.

(** A method of the walker returns [None] or raises. *)
Inductive outcome := Returned | Raised (e : exn).

(** An index is an integer or a slice [start:stop:step]. *)
Record slice := Slice { start : option Z; stop : option Z; step : option Z }.
Inductive index := Int (i : Z) | Slc (s : slice).

(** [l[i]] for an integer [i]: a negative index counts from the end, an index
    out of range raises [IndexError] ([None] here). *)
Definition py_index (len i : Z) : option nat :=
  let j := if i <? 0 then i + len else i in
  if (0 <=? j) && (j <? len) then Some (Z.to_nat j) else None.

Definition py_getitem {A} (l : list A) (i : Z) : option A :=
  j ← py_index (Z.of_nat (length l)) i; l !! j.

(** ** SortedFocusListWalker (listbox.py)

    The object holds the list itself, the focus kept by the base class
    [urwid.SimpleFocusListWalker], and the two attributes [sorting_key] and
    [reverse].  A sorting key may return values of any comparable type, and
    [sort] may replace it by a key of another type, so the type of the keys
    is part of the object. *)

Section Walker.
Context {A : Type} `{EqDecision A}.

Record SortedFocusListWalker := Walker {
  contents : list A;
  focus : Z;
  key_type : Type;
  key_comparable : Comparable key_type;
  sorting_key : A → key_type;
  reverse : bool
}.
#[local] Existing Instance key_comparable.

Implicit Types (sw : SortedFocusListWalker) (l : list A).

(** The same object with a new list and focus. *)
Definition with_list sw l (f : Z) : SortedFocusListWalker :=
  {| contents := l; focus := f; key_type := key_type sw;
     key_comparable := key_comparable sw;
     sorting_key := sorting_key sw; reverse := reverse sw |}.

(** *** The inherited list operations

    [super().insert], [super().append], [super().sort] and [del self[i]] are
    methods of urwid's [MonitoredFocusList], which moves the focus along
    with the focused item.  urwid is a dependency of the package and not
    part of it; the four methods are written here as urwid defines them, and
    the doctests of listbox.py, which print the focus after each call, are
    replayed on them below. *)

(** [_adjust_focus_on_contents_modified] for a slice [start:stop] of step 1
    replaced by [num_new] items, in a list of length [len]. *)
Definition adjust_focus (len start stop num_new f : Z) : Z :=
  let f := if (start + num_new <=? f) && (f <? stop) then stop else f in
  let f := if stop <=? f then f + num_new - (stop - start) else f in
  Z.min f (len + num_new - (stop - start) - 1).

(** [super().insert(index, item)], for [0 <= index <= len(self)]. *)
Definition super_insert (i : nat) (item : A) sw : SortedFocusListWalker * outcome :=
  let len := Z.of_nat (length (contents sw)) in
  (with_list sw (take i (contents sw) ++ item :: drop i (contents sw))
     (adjust_focus len (Z.of_nat i) (Z.of_nat i) 1 (focus sw)), Returned).

(** [super().append(item)]. *)
Definition super_append (item : A) sw : SortedFocusListWalker * outcome :=
  let len := Z.of_nat (length (contents sw)) in
  (with_list sw (contents sw ++ [item]) (adjust_focus len len len 1 (focus sw)),
   Returned).

(** [del self[i]] for an integer [i].  The adjusted focus is stored through
    [_set_focus], which puts the focus back to 0 when the list has become
    empty. *)
Definition delitem (i : Z) sw : SortedFocusListWalker * outcome :=
  let len := Z.of_nat (length (contents sw)) in
  match py_index len i with
  | Some j =>
      let l := delete j (contents sw) in
      (with_list sw l
         match l with
         | [] => 0
         | _ => adjust_focus len (Z.of_nat j) (Z.of_nat j + 1) 0 (focus sw)
         end, Returned)
  | None => (sw, Raised IndexError)
  end.

(** [super().sort(key=self.sorting_key, reverse=self.reverse)]: an empty
    list is left alone; otherwise the focused value is looked up, the
    list is sorted, and the focus is set to [self.index(value)]. *)
Definition super_sort sw : SortedFocusListWalker * outcome :=
  match contents sw with
  | [] => (sw, Returned)
  | _ =>
      match py_getitem (contents sw) (focus sw) with
      | None => (sw, Raised IndexError)
      | Some value =>
          let l := py_sorted (sorting_key sw) (reverse sw) (contents sw) in
          match list_find (λ item, item = value) l with
          | Some (i, _) => (with_list sw l (Z.of_nat i), Returned)
          | None => (with_list sw l (focus sw), Raised ValueError)
          end
      end
  end.

(** *** The methods of the class *)

(** [__init__(contents, sorting_key, reverse)]: the base class starts with
    the focus on index 0. *)
Definition init `{Comparable K} l (key : A → K) (rev : bool) : SortedFocusListWalker :=
  {| contents := py_sorted key rev l; focus := 0; key_type := K;
     key_comparable := _; sorting_key := key; reverse := rev |}.

(** [add(new_item)]: the loop returns at the first [index] whose [item]
    satisfies [(self.sorting_key(item) > new_value) ^ self.reverse]. *)
Definition add (new_item : A) sw : SortedFocusListWalker * outcome :=
  let new_value := sorting_key sw new_item in
  match list_find
          (λ item, xorb (py_gt (sorting_key sw item) new_value) (reverse sw))
          (contents sw) with
  | Some (index, _) => super_insert index new_item sw
  | None => super_append new_item sw
  end.

(** The test of that loop, for [new_item] against an [item] of the list. *)
Definition stops_at sw (new_item item : A) : bool :=
  xorb (py_gt (sorting_key sw item) (sorting_key sw new_item)) (reverse sw).

(** [for item in items: body(item)], left at the first exception. *)
Fixpoint for_each (body : A → SortedFocusListWalker → SortedFocusListWalker * outcome)
    (items : list A) sw : SortedFocusListWalker * outcome :=
  match items with
  | [] => (sw, Returned)
  | item :: items' =>
      match body item sw with
      | (sw', Returned) => for_each body items' sw'
      | raised => raised
      end
  end.

(** [extend(new_items)]. *)
Definition extend (new_items : list A) sw : SortedFocusListWalker * outcome :=
  for_each add (py_sorted (sorting_key sw) (reverse sw) new_items) sw.

(** [self[i] = y]. *)
Definition setitem (i : index) (y : A) sw : SortedFocusListWalker * outcome :=
  match i with
  | Slc _ => (sw, Raised NotImplementedError)
  | Int i =>
      match delitem i sw with
      | (sw', Returned) => add y sw'
      | raised => raised
      end
  end.

(** [self *= n]. *)
Definition imul (n : Z) sw : SortedFocusListWalker * outcome :=
  (sw, Raised NotImplementedError).

(** [self += new_item]: a list is passed to [extend], anything else to
    [add]. *)
Definition iadd (new_item : A + list A) sw : SortedFocusListWalker * outcome :=
  match new_item with
  | inr new_items => extend new_items sw
  | inl item => add item sw
  end.

(** [append(new_item)] and [insert(index, item)] warn and call [add]; the
    warning changes nothing in the object. *)
Definition append (new_item : A) sw : SortedFocusListWalker * outcome :=
  add new_item sw.

Definition insert (i : Z) (item : A) sw : SortedFocusListWalker * outcome :=
  add item sw.

(** [sort(sorting_key, reverse)]. *)
Definition sort `{Comparable K} (key : A → K) (rev : bool) sw :
    SortedFocusListWalker * outcome :=
  super_sort {| contents := contents sw; focus := focus sw; key_type := K;
                key_comparable := _; sorting_key := key; reverse := rev |}.

(** The focus as the [focus] property reports it: [None] on an empty
    list. *)
Definition get_focus sw : option Z :=
  match contents sw with [] => None | _ => Some (focus sw) end.

(** The sort invariant of the object. *)
Definition is_sorted sw : Prop :=
  sorted_by (sorting_key sw) (reverse sw) (contents sw).

(** A public mutation of the walker, and a run of them; the caller goes on
    after a call that raised. *)
Inductive mutation :=
  | Add (item : A)
  | Extend (items : list A)
  | SetItem (i : index) (y : A)
  | IAdd (new_item : A + list A)
  | Append (item : A)
  | Insert (i : Z) (item : A)
  | IMul (n : Z).

Definition call (m : mutation) sw : SortedFocusListWalker * outcome :=
  match m with
  | Add item => add item sw
  | Extend items => extend items sw
  | SetItem i y => setitem i y sw
  | IAdd new_item => iadd new_item sw
  | Append item => append item sw
  | Insert i item => insert i item sw
  | IMul n => imul n sw
  end.

Definition run (ms : list mutation) sw : SortedFocusListWalker :=
  foldl (λ sw m, (call m sw).1) sw ms.

(** [extend(items)] leaves the contents that [add], called on the items one
    by one in any order, leaves. *)
Definition extend_order_independent (items : list A) sw : Prop :=
  ∀ items', items' ≡ₚ items →
    contents (extend items sw).1 = contents (for_each add items' sw).1.

End Walker.

Arguments SortedFocusListWalker : clear implicits.
Arguments mutation : clear implicits.

(** ** SearchableWidgetWrapper (wrapper.py) *)

(** [s[:-1]] on a string. *)
Fixpoint drop_last (s : string) : string :=
  match s with
  | String c (String _ _ as s') => String c (drop_last s')
  | _ => ""
  end.

(** The size handed to [keypress]; it is only passed on. *)
Definition size : Type := list Z.

Section Wrapper.
Context {A : Type}.

(** The wrapped container, as far as the wrapper looks at it: iterating it
    yields the positions [0 .. len-1], [w[index]] is the item at that
    position, and [set_focus(index)] makes [index] the focus position. *)
Record container := Container {
  items : list A;
  focus_position : nat
}.

Definition set_focus (index : nat) (w : container) : container :=
  {| items := items w; focus_position := index |}.

(** The item in focus, [get_focus()]. *)
Definition focus_item (w : container) : option A := items w !! focus_position w.

(** [super().keypress(size, key)] hands the key to the wrapped widget, which
    may change (its focus, say) and answers with the key it did not use, or
    [None]. *)
Variable wrapped_keypress : size → string → container → container * option string.

Record SearchableWidgetWrapper := Wrapper {
  _w : container;
  looked_field : A → string;
  _search : string
}.

Implicit Types (sw : SearchableWidgetWrapper).

(** [__init__(wrapped_widget, looked_field)]. *)
Definition wrap (wrapped_widget : container) (field : A → string) :
    SearchableWidgetWrapper :=
  {| _w := wrapped_widget; looked_field := field; _search := "" |}.

(** [label.startswith(new_search)]. *)
Definition startswith (label new_search : string) : bool :=
  String.prefix new_search label.

(** [_set_search(new_search)]: the loop stops at the first position whose
    item has a matching field; [_invalidate()] only drops the cached
    rendering. *)
Definition _set_search (new_search : string) sw : SearchableWidgetWrapper :=
  match list_find (λ item, startswith (looked_field sw item) new_search)
          (items (_w sw)) with
  | Some (index, _) =>
      {| _w := set_focus index (_w sw); looked_field := looked_field sw;
         _search := new_search |}
  | None => sw
  end.

(** The [search] property reads [_search] and writes through
    [_set_search]. *)
Definition search sw : string := _search sw.

Definition clear_search sw : SearchableWidgetWrapper :=
  {| _w := _w sw; looked_field := looked_field sw; _search := "" |}.

(** [keypress(size, key)] returns the key it did not use, or [None]. *)
Definition keypress (sz : size) (key : string) sw :
    SearchableWidgetWrapper * option string :=
  let '(w, key) := wrapped_keypress sz key (_w sw) in
  let sw := {| _w := w; looked_field := looked_field sw; _search := _search sw |} in
  match key with
  | None => (clear_search sw, None)
  | Some key =>
      if decide (key = "backspace") then
        (if decide (search sw = "") then sw
         else _set_search (drop_last (search sw)) sw, None)
      else if decide (String.length key = 1%nat) then
        (_set_search (search sw +:+ key) sw, None)
      else (clear_search sw, Some key)
  end.

(** A run of key presses. *)
Definition keypresses (keys : list (size * string)) sw : SearchableWidgetWrapper :=
  foldl (λ sw k, (keypress k.1 k.2 sw).1) sw keys.

(** Some item's field starts with [s]. *)
Definition matches (s : string) sw : Prop :=
  ∃ item, item ∈ items (_w sw) ∧ startswith (looked_field sw item) s = true.

(** [i] is the first position of [w] whose item has a field starting with
    [s]. *)
Definition first_match (field : A → string) (s : string) (w : container) (i : nat) : Prop :=
  (∃ item, items w !! i = Some item ∧ startswith (field item) s = true) ∧
  ∀ j other, items w !! j = Some other → (j < i)%nat →
    startswith (field other) s = false.

(** The invariant of the search string. *)
Definition search_ok sw : Prop := search sw = "" ∨ matches (search sw) sw.

(** The item in focus has a field that starts with the search string. *)
Definition focus_ok sw : Prop :=
  search sw = "" ∨
  ∃ item, focus_item (_w sw) = Some item ∧
          startswith (looked_field sw item) (search sw) = true.

End Wrapper.

Arguments container : clear implicits.
Arguments SearchableWidgetWrapper : clear implicits.

(** A wrapped widget that uses no key itself, like the [Pile] of [Text]
    widgets in the doctest of wrapper.py. *)
Definition unused_keypress {A} (sz : size) (key : string) (w : container A) :
    container A * option string := (w, Some key).

(** The items in the order in which they count for ties: in ascending
    order the new ones come after the old ones, in descending order before
    them, the last one added first. *)
Definition arrival {B} (rev : bool) (old new : list B) : list B :=
  if rev then List.rev new ++ old else old ++ new.

(** * Properties *)

(** ** The order on keys *)

Section OrderFacts.
Context {K : Type} `{Comparable K}.
Implicit Types a b c : K.

Lemma py_lt_asym a b : py_lt a b = true → py_lt b a = false.
Proof.
  intros Hab. destruct (py_lt b a) eqn:Hba; [|done].
  by rewrite <-(py_lt_irrefl a), (py_lt_trans a b a).
Qed.

Lemma py_eq_true a b : py_eq a b = true ↔ a = b.
Proof.
  unfold py_eq. split.
  - intros [?%negb_true_iff ?%negb_true_iff]%andb_true_iff.
    by apply py_lt_total.
  - intros ->. by rewrite py_lt_irrefl.
Qed.

(** [a <= b] and [b <= c] give [a <= c], with [x <= y] read as "not
    [y < x]". *)
Lemma py_le_trans a b c :
  py_lt b a = false → py_lt c b = false → py_lt c a = false.
Proof.
  intros Hba Hcb. destruct (py_lt c a) eqn:Hca; [|done].
  destruct (py_lt a b) eqn:Hab.
  - by rewrite (py_lt_trans c a b) in Hcb.
  - rewrite (py_lt_total a b) in Hca by done. congruence.
Qed.
End OrderFacts.

(** ** [sorted] is a stable sort *)

Section SortingFacts.
Context {A K : Type} `{Comparable K}.
Implicit Types (key : A → K) (reverse : bool) (l : list A).

Lemma precedes_asym key reverse a b :
  precedes key reverse a b = true → precedes key reverse b a = false.
Proof. destruct reverse; apply py_lt_asym. Qed.

Lemma precedes_in_order key reverse a b :
  precedes key reverse a b = true → in_order key reverse a b.
Proof. apply precedes_asym. Qed.

Lemma precedes_keys key reverse a b :
  precedes key reverse a b = true → key a ≠ key b.
Proof.
  intros Hab Heq. unfold precedes in Hab.
  rewrite Heq, py_lt_irrefl in Hab. by destruct reverse.
Qed.

#[local] Instance in_order_refl key reverse : Reflexive (in_order key reverse).
Proof. intros a. unfold in_order, precedes. destruct reverse; apply py_lt_irrefl. Qed.

#[local] Instance in_order_trans key reverse : Transitive (in_order key reverse).
Proof.
  intros a b c. unfold in_order, precedes. destruct reverse; intros Hab Hbc.
  - by apply (py_le_trans (key c) (key b) (key a)).
  - by apply (py_le_trans (key a) (key b) (key c)).
Qed.

Lemma in_order_antisym key reverse a b :
  in_order key reverse a b → in_order key reverse b a → key a = key b.
Proof.
  unfold in_order, precedes. destruct reverse; intros Hab Hba.
  - by apply py_lt_total.
  - by apply py_lt_total.
Qed.

Lemma sorted_by_strongly key reverse l :
  sorted_by key reverse l ↔ StronglySorted (in_order key reverse) l.
Proof.
  split; [apply Sorted_StronglySorted, _ | apply StronglySorted_Sorted].
Qed.

(** The invariant of the specification, pair by pair. *)
Lemma sorted_by_adjacent key reverse l (i : nat) a b :
  sorted_by key reverse l → l !! i = Some a → l !! S i = Some b →
  if reverse then py_lt (key a) (key b) = false
  else py_lt (key b) (key a) = false.
Proof.
  intros Hl. revert i. induction Hl as [|x l Hl IH Hx]; intros i; [done|].
  destruct i as [|i]; simpl.
  - intros [= ->] Hb. destruct Hx as [|y l Hxy]; simplify_eq/=.
    unfold in_order, precedes in Hxy. by destruct reverse.
  - apply IH.
Qed.

Lemma sorted_insert_perm key reverse x l :
  sorted_insert key reverse x l ≡ₚ x :: l.
Proof.
  induction l as [|y l IH]; simpl; [done|].
  destruct (precedes key reverse y x); [|done].
  by rewrite IH, Permutation_swap.
Qed.

Lemma py_sorted_perm key reverse l : py_sorted key reverse l ≡ₚ l.
Proof.
  induction l as [|x l IH]; simpl; [done|].
  by rewrite sorted_insert_perm, IH.
Qed.

Lemma sorted_insert_sorted key reverse x l :
  StronglySorted (in_order key reverse) l →
  StronglySorted (in_order key reverse) (sorted_insert key reverse x l).
Proof.
  induction 1 as [|y l Hl IH Hy]; simpl; [repeat constructor|].
  destruct (precedes key reverse y x) eqn:Hyx.
  - constructor; [done|].
    rewrite sorted_insert_perm. constructor; [|done].
    by apply precedes_in_order.
  - assert (in_order key reverse x y) as Hxy by done.
    repeat constructor; [done..|].
    eapply Forall_impl; [exact Hy|]. intros z Hz. by trans y.
Qed.

Lemma py_sorted_sorted key reverse l :
  sorted_by key reverse (py_sorted key reverse l).
Proof.
  apply sorted_by_strongly.
  induction l as [|x l IH]; simpl; [constructor|].
  by apply sorted_insert_sorted.
Qed.

(** Items with the same key keep their order. *)
Lemma sorted_insert_stable key reverse k x l :
  filter (λ y, py_eq (key y) k) (sorted_insert key reverse x l)
  = filter (λ y, py_eq (key y) k) (x :: l).
Proof.
  induction l as [|y l IH]; simpl; [done|].
  destruct (precedes key reverse y x) eqn:Hyx; [|done].
  rewrite (filter_cons _ y), IH, !filter_cons.
  apply precedes_keys in Hyx.
  repeat case_decide; try done.
  exfalso. apply Hyx.
  match goal with
  | H1 : Is_true (py_eq (key y) k), H2 : Is_true (py_eq (key x) k) |- _ =>
      apply Is_true_true, py_eq_true in H1;
      apply Is_true_true, py_eq_true in H2; congruence
  end.
Qed.

Lemma py_sorted_stable key reverse k l :
  filter (λ y, py_eq (key y) k) (py_sorted key reverse l)
  = filter (λ y, py_eq (key y) k) l.
Proof.
  induction l as [|x l IH]; simpl; [done|].
  by rewrite sorted_insert_stable, !filter_cons, IH.
Qed.

(** A sorted list takes a new item at any cut with nothing worse before it
    and nothing better right after it. *)
Lemma sorted_cut_insert key reverse x l1 l2 :
  StronglySorted (in_order key reverse) (l1 ++ l2) →
  Forall (λ y, in_order key reverse y x) l1 →
  (∀ y, head l2 = Some y → in_order key reverse x y) →
  StronglySorted (in_order key reverse) (l1 ++ x :: l2).
Proof.
  rewrite !StronglySorted_app. intros (H12 & Hl1 & Hl2) Hx Hhd.
  assert (Forall (in_order key reverse x) l2) as Hx2.
  { destruct l2 as [|y l2]; [done|].
    apply StronglySorted_inv in Hl2 as [_ Hy].
    constructor; [by apply Hhd|].
    eapply Forall_impl; [exact Hy|]. intros z Hz. trans y; [by apply Hhd|done]. }
  split_and!; [|done|by constructor].
  intros a b Ha [->|Hb]%elem_of_cons; [|by apply H12].
  by eapply Forall_forall in Hx.
Qed.

(** Sorted lists with the same items are equal, when items with equal keys
    are equal. *)
Lemma sorted_by_unique key reverse l1 l2 :
  (∀ a b, a ∈ l1 → b ∈ l1 → key a = key b → a = b) →
  sorted_by key reverse l1 → sorted_by key reverse l2 → l1 ≡ₚ l2 → l1 = l2.
Proof.
  rewrite !sorted_by_strongly. intros Hinj Hl1 Hl2 Hperm.
  apply (StronglySorted_unique_strong (in_order key reverse)); [|done..].
  intros a b Ha Hb Hab Hba. apply Hinj; [done| |].
  - by rewrite Hperm.
  - by eapply in_order_antisym.
Qed.
End SortingFacts.

(** ** SortedFocusListWalker *)

Section WalkerFacts.
Context {A : Type} `{EqDecision A}.
Implicit Types (sw : SortedFocusListWalker A) (l : list A) (x y : A).

#[local] Existing Instance key_comparable.
#[local] Existing Instance in_order_trans.

Lemma stops_at_false sw x y :
  stops_at sw x y = false → in_order (sorting_key sw) (reverse sw) y x.
Proof.
  unfold stops_at, in_order, precedes, py_gt. destruct (reverse sw).
  - intros ?%negb_false_iff. by apply py_lt_asym.
  - by rewrite xorb_false_r.
Qed.

Lemma stops_at_true sw x y :
  stops_at sw x y = true → in_order (sorting_key sw) (reverse sw) x y.
Proof.
  unfold stops_at, in_order, precedes, py_gt. destruct (reverse sw).
  - by intros ?%negb_true_iff.
  - rewrite xorb_false_r. apply py_lt_asym.
Qed.

(** Where [add] puts the new item: the list is cut in front of the first
    item the test accepts, or at its end when the test accepts none. *)
Lemma add_cut x sw :
  ∃ l1 l2 f,
    contents sw = l1 ++ l2 ∧
    add x sw = (with_list sw (l1 ++ x :: l2) f, Returned) ∧
    Forall (λ y, stops_at sw x y = false) l1 ∧
    (∀ y, head l2 = Some y → stops_at sw x y = true).
Proof.
  unfold add.
  destruct (list_find _ (contents sw)) as [[i y]|] eqn:Hfind.
  - apply list_find_Some in Hfind as (Hi & Hy & Hbefore).
    eexists (take i (contents sw)), (drop i (contents sw)), _.
    split_and!; [by rewrite take_drop|done| |].
    + apply Forall_lookup. intros j z [Hz Hj]%lookup_take_Some.
      specialize (Hbefore j z Hz Hj). fold (stops_at sw x z) in Hbefore.
      by destruct (stops_at sw x z).
    + intros z. rewrite head_lookup, lookup_drop, Nat.add_0_r, Hi.
      intros [= <-]. by apply Is_true_true.
  - apply list_find_None in Hfind.
    eexists (contents sw), [], _.
    split_and!; [by rewrite app_nil_r|done| |done].
    eapply Forall_impl; [exact Hfind|]. intros z Hz. simpl in Hz.
    fold (stops_at sw x z) in Hz. by destruct (stops_at sw x z).
Qed.

Lemma add_sorted x sw : is_sorted sw → is_sorted (add x sw).1.
Proof.
  destruct (add_cut x sw) as (l1 & l2 & f & Hl & -> & Hl1 & Hl2).
  unfold is_sorted; simpl. rewrite Hl, !sorted_by_strongly. intros Hsorted.
  apply sorted_cut_insert; [done| |].
  - eapply Forall_impl; [exact Hl1|]. intros y. apply stops_at_false.
  - intros y Hy. by apply stops_at_true, Hl2.
Qed.

Lemma delitem_sorted i sw : is_sorted sw → is_sorted (delitem i sw).1.
Proof.
  unfold delitem, is_sorted.
  destruct (py_index _ i) as [j|]; simpl; [|done].
  rewrite !sorted_by_strongly. generalize (contents sw). clear.
  intros l Hl. revert j.
  induction Hl as [|x l Hl IH Hx]; intros [|j]; simpl;
    [constructor|constructor|done|].
  constructor; [apply IH|]. by apply Forall_delete.
Qed.

(** A loop of [add] never raises, keeps the key and the direction, and
    leaves a sorted list of the old items and the added ones. *)
Lemma for_each_add items sw :
  is_sorted sw →
  ∃ l f,
    for_each add items sw = (with_list sw l f, Returned) ∧
    l ≡ₚ contents sw ++ items ∧
    sorted_by (sorting_key sw) (reverse sw) l.
Proof.
  revert sw. induction items as [|x items IH]; intros sw Hsw; simpl.
  - exists (contents sw), (focus sw). rewrite app_nil_r. by destruct sw.
  - pose proof (add_sorted x sw Hsw) as Hadd.
    destruct (add_cut x sw) as (l1 & l2 & f & Hl & Heq & _).
    rewrite Heq in Hadd |- *; simpl in Hadd.
    destruct (IH _ Hadd) as (l & f' & -> & Hperm & Hsorted).
    exists l, f'. split_and!; [done| |done].
    rewrite Hperm; simpl. rewrite Hl.
    rewrite <-!app_assoc. f_equiv. apply Permutation_middle.
Qed.

Lemma extend_sorted items sw : is_sorted sw → is_sorted (extend items sw).1.
Proof.
  intros Hsw. unfold extend.
  by destruct (for_each_add (py_sorted (sorting_key sw) (reverse sw) items)
                 sw Hsw) as (l & f & -> & _ & ?).
Qed.

Lemma setitem_sorted i y sw : is_sorted sw → is_sorted (setitem i y sw).1.
Proof.
  intros Hsw. destruct i as [i|s]; simpl; [|done].
  pose proof (delitem_sorted i sw Hsw) as Hdel.
  destruct (delitem i sw) as [sw' [|e]]; [|done].
  by apply add_sorted.
Qed.

Lemma call_sorted (m : mutation A) sw : is_sorted sw → is_sorted (call m sw).1.
Proof.
  destruct m as [x|items|i y|[x|items]|x|i x|n]; simpl;
    unfold append, insert;
    auto using add_sorted, extend_sorted, setitem_sorted.
Qed.

Lemma run_sorted (ms : list (mutation A)) sw : is_sorted sw → is_sorted (run ms sw).
Proof.
  revert sw. induction ms as [|m ms IH]; intros sw Hsw; simpl; [done|].
  by apply IH, call_sorted.
Qed.

(** C1. Sort invariant.  A walker built from any sequence, with any key and
    direction, is sorted under that key and direction after every run of
    [add], [extend], [self[i] = y], [+=], [append], [insert] and [*=]: each
    item is in order with the item after it.  A call that raises (an index
    out of range, a slice, [*=]) leaves a sorted walker as well. *)
Theorem sort_invariant `{Comparable K} l (key : A → K) (rev : bool)
    (ms : list (mutation A)) :
  is_sorted (run ms (init l key rev)).
Proof. apply run_sorted, py_sorted_sorted. Qed.

(** In ascending order [add] is stable: the new item ends up behind the
    items with its key, and the items with any one key keep their order. *)
Lemma add_ascending_stable x sw (k : key_type sw) :
  reverse sw = false → is_sorted sw →
  filter (λ y, py_eq (sorting_key sw y) k) (contents (add x sw).1)
  = filter (λ y, py_eq (sorting_key sw y) k) (contents sw ++ [x]).
Proof.
  intros Hrev Hsw.
  destruct (add_cut x sw) as (l1 & l2 & f & Hl & -> & _ & Hl2); simpl.
  rewrite Hl, <-app_assoc, !filter_app. f_equal.
  rewrite filter_cons, (filter_cons _ x), filter_nil.
  case_decide as Hx; [|by rewrite app_nil_r].
  apply Is_true_true, py_eq_true in Hx.
  assert (Forall (λ z, py_lt (sorting_key sw x) (sorting_key sw z) = true) l2)
    as Hgt.
  { unfold is_sorted in Hsw. rewrite Hl, sorted_by_strongly in Hsw.
    apply StronglySorted_app_1_r in Hsw.
    destruct l2 as [|y l2]; [done|].
    specialize (Hl2 y eq_refl). unfold stops_at, py_gt in Hl2.
    rewrite Hrev, xorb_false_r in Hl2.
    apply StronglySorted_inv in Hsw as [_ Hy].
    constructor; [done|].
    eapply Forall_impl; [exact Hy|]. intros z Hyz.
    unfold in_order, precedes in Hyz. rewrite Hrev in Hyz.
    destruct (py_lt (sorting_key sw x) (sorting_key sw z)) eqn:Hxz; [done|].
    by rewrite (py_le_trans _ _ _ Hyz Hxz) in Hl2. }
  assert (filter (λ y, py_eq (sorting_key sw y) k) l2 = []) as ->; [|done].
  clear Hl Hl2. induction Hgt as [|z l2 Hz _ IH]; [done|].
  rewrite filter_cons, IH. case_decide as Hzk; [|done].
  apply Is_true_true, py_eq_true in Hzk.
  by rewrite Hx, <-Hzk, py_lt_irrefl in Hz.
Qed.

(** C5. Unsupported operations.  [self[i] = y] with a slice for [i], and
    [self *= n], raise NotImplementedError and leave the walker (contents,
    key, direction, focus) as it was. *)
Theorem unsupported_rejected sw (s : slice) y (n : Z) :
  setitem (Slc s) y sw = (sw, Raised NotImplementedError) ∧
  imul n sw = (sw, Raised NotImplementedError).
Proof. done. Qed.

(** C6, as amended.  On a walker whose focus is on an item [value],
    [sort(key, rev)] stores the new key and direction, sorts the items
    stably, and moves the focus to the first position that holds [value]:
    the focus follows the focused item. *)
Theorem sort_follows_focus `{Comparable K} (key : A → K) (rev : bool) sw value :
  py_getitem (contents sw) (focus sw) = Some value →
  ∃ i : nat,
    sort key rev sw
    = ({| contents := py_sorted key rev (contents sw); focus := Z.of_nat i;
          key_type := K; key_comparable := _; sorting_key := key;
          reverse := rev |}, Returned) ∧
    py_sorted key rev (contents sw) !! i = Some value ∧
    ∀ j, (j < i)%nat → py_sorted key rev (contents sw) !! j ≠ Some value.
Proof.
  intros Hvalue. unfold sort, super_sort; simpl. rewrite Hvalue.
  assert (value ∈ contents sw) as Hin.
  { unfold py_getitem in Hvalue.
    destruct (py_index _ _) as [j|]; simplify_eq/=.
    by eapply list_elem_of_lookup_2. }
  destruct (contents sw) as [|x l] eqn:Hl; [by apply elem_of_nil in Hin|].
  rewrite <-Hl in *. clear Hl.
  destruct (list_find_elem_of (λ item, item = value)
              (py_sorted key rev (contents sw)) value) as [[i y] Hfind];
    [by rewrite py_sorted_perm|done|].
  rewrite Hfind.
  apply list_find_Some in Hfind as (Hi & -> & Hbefore).
  exists i. split_and!; [done..|].
  intros j Hj Hjv. by apply (Hbefore j value).
Qed.

End WalkerFacts.

(** ** The doctests of listbox.py

    Each one prints the list and the focus after a call. *)

Example doctest_init :
  let sw := init [1; 4; 2; 7; 3] id false in
  (contents sw, get_focus sw) = ([1; 2; 3; 4; 7], Some 0).
Proof. reflexivity. Qed.

Example doctest_init_add_iadd :
  let sw := run [Add 5; IAdd (inr [11; 0; 6])] (init [1; 4; 2; 7; 3] id false) in
  (contents sw, get_focus sw) = ([0; 1; 2; 3; 4; 5; 6; 7; 11], Some 1).
Proof. reflexivity. Qed.

Example doctest_init_reverse :
  contents (init [1; 4; 7; 3] id true) = [7; 4; 3; 1].
Proof. reflexivity. Qed.

Example doctest_init_key :
  contents (init [(1, 10); (4, 6); (0, 7)] fst false) = [(0, 7); (1, 10); (4, 6)] ∧
  contents (init [(1, 10); (4, 6); (0, 7)] snd false) = [(4, 6); (0, 7); (1, 10)].
Proof. split; reflexivity. Qed.

Example doctest_add :
  let sw := run [Add 5; Add 7] (init [1; 10] id false) in
  (contents sw, get_focus sw) = ([1; 5; 7; 10], Some 0).
Proof. reflexivity. Qed.

Example doctest_add_reverse :
  let sw := (add (100, 4) (init [(1, 10); (4, 2); (0, 7)] snd true)).1 in
  (contents sw, get_focus sw) = ([(1, 10); (0, 7); (100, 4); (4, 2)], Some 0).
Proof. reflexivity. Qed.

Example doctest_extend :
  let sw := (extend [0; 2; -10; 14] (init [1; 10] id false)).1 in
  (contents sw, get_focus sw) = ([-10; 0; 1; 2; 10; 14], Some 2).
Proof. reflexivity. Qed.

Example doctest_extend_reverse :
  let sw := (extend [(100, 4); (20, 20)]
               (init [(1, 10); (4, 2); (0, 7)] snd true)).1 in
  (contents sw, get_focus sw)
  = ([(20, 20); (1, 10); (0, 7); (100, 4); (4, 2)], Some 1).
Proof. reflexivity. Qed.

Example doctest_sort :
  let sw0 := init [(-1, 10); (30, -5); (4, 20); (0, 7)] id false in
  let sw1 := (sort snd false sw0).1 in
  let sw2 := (sort id true sw1).1 in
  let sw3 := (add (2, 2) sw2).1 in
  (contents sw0, get_focus sw0)
  = ([(-1, 10); (0, 7); (4, 20); (30, -5)], Some 0) ∧
  (contents sw1, get_focus sw1)
  = ([(30, -5); (0, 7); (-1, 10); (4, 20)], Some 2) ∧
  (contents sw2, get_focus sw2)
  = ([(30, -5); (4, 20); (0, 7); (-1, 10)], Some 3) ∧
  (contents sw3, get_focus sw3)
  = ([(30, -5); (4, 20); (2, 2); (0, 7); (-1, 10)], Some 4).
Proof. repeat split; reflexivity. Qed.

(** ** The walker on items with equal keys *)

(** C2.  With [reverse=True], [add] does not look for the first item whose
    key is strictly less than the new key: on the walker [[(5, 0)]], sorted
    by the first component, no item has a key below 5, and still [(5, 1)] is
    not appended but put in front of [(5, 0)], whose key equals its own. *)
Theorem add_descending_tie :
  let sw := init [(5, 0)] fst true in
  Forall (λ item, py_lt (fst item) 5 = false) (contents sw) ∧
  contents (add (5, 1) sw).1 = [(5, 1); (5, 0)].
Proof. split; [by repeat constructor|reflexivity]. Qed.

(** C3.  With [reverse=True], items with equal keys do not keep their
    insertion order: added one after the other, [(5, 0)] and [(5, 1)] end
    up with the later one first, while the constructor, given both at once,
    keeps them in the order it received them. *)
Theorem add_descending_reorders_ties :
  contents (run [Add (5, 0); Add (5, 1)] (init [] fst true))
  = [(5, 1); (5, 0)] ∧
  contents (init [(5, 0); (5, 1)] fst true) = [(5, 0); (5, 1)].
Proof. split; reflexivity. Qed.

(** With [reverse=False] the same calls keep the insertion order. *)
Example add_ascending_keeps_ties :
  contents (run [Add (5, 0); Add (5, 1)] (init [] fst false))
  = [(5, 0); (5, 1)].
Proof. reflexivity. Qed.

(** C4, as stated, fails on two items with one key: [extend] keeps them in
    the order of its argument, [add] in the order of the calls. *)
Lemma extend_order_dependent :
  ¬ extend_order_independent [(1, 0); (1, 1)] (init [] fst false).
Proof.
  intros Hind.
  specialize (Hind [(1, 1); (1, 0)] (Permutation_swap _ _ _)).
  vm_compute in Hind. discriminate.
Qed.

(** C6, as stated, fails on the doctest of [sort]: the focus is on index 0
    before the call and on index 2 after it, where the item that had the
    focus now stands. *)
Lemma sort_moves_focus :
  let sw := init [(-1, 10); (30, -5); (4, 20); (0, 7)] id false in
  focus sw = 0 ∧ focus (sort snd false sw).1 = 2 ∧
  focus (sort snd false sw).1 ≠ focus sw.
Proof. done. Qed.

Lemma sort_follows_focus_witness :
  let sw := init [(-1, 10); (30, -5); (4, 20); (0, 7)] id false in
  py_getitem (contents sw) (focus sw) = Some (-1, 10) ∧
  ∃ i : nat,
    sort snd false sw
    = ({| contents := py_sorted snd false (contents sw); focus := Z.of_nat i;
          key_type := Z; key_comparable := _; sorting_key := snd;
          reverse := false |}, Returned) ∧
    py_sorted snd false (contents sw) !! i = Some (-1, 10) ∧
    ∀ j, (j < i)%nat → py_sorted snd false (contents sw) !! j ≠ Some (-1, 10).
Proof.
  split; [reflexivity|].
  exact (sort_follows_focus snd false
           (init [(-1, 10); (30, -5); (4, 20); (0, 7)] id false)
           (-1, 10) eq_refl).
Defined.

(** ** Strings *)

Lemma prefix_drop_last (s t : string) :
  String.prefix s t = true → String.prefix (drop_last s) t = true.
Proof.
  revert t. induction s as [|c s IH]; intros t; [done|].
  destruct t as [|d t]; [done|]. simpl.
  destruct (Ascii.ascii_dec c d) as [->|]; [|done].
  intros Hst. destruct s as [|c' s]; [done|].
  simpl. destruct (Ascii.ascii_dec d d); [|done]. by apply IH.
Qed.

Lemma one_character_not_backspace (key : string) :
  String.length key = 1%nat → key ≠ "backspace".
Proof. by intros Hlen ->. Qed.

(** ** SearchableWidgetWrapper *)

Section WrapperFacts.
Context {A : Type}.
Variable wrapped_keypress : size → string → container A → container A * option string.
Implicit Types (sw : SearchableWidgetWrapper A) (w : container A) (s key : string).

Lemma _set_search_match s sw :
  matches s sw →
  ∃ i, first_match (looked_field sw) s (_w sw) i ∧
       _set_search s sw
       = {| _w := set_focus i (_w sw); looked_field := looked_field sw;
            _search := s |}.
Proof.
  intros (item & Hin & Hitem). unfold _set_search.
  destruct (list_find_elem_of
              (λ item, startswith (looked_field sw item) s)
              (items (_w sw)) item) as [[i y] Hfind];
    [done|by apply Is_true_true|].
  rewrite Hfind. apply list_find_Some in Hfind as (Hi & Hy & Hbefore).
  exists i. split; [|done]. split.
  - exists y. split; [done|]. by apply Is_true_true.
  - intros j other Hj Hlt. specialize (Hbefore j other Hj Hlt).
    by destruct (startswith (looked_field sw other) s).
Qed.

Lemma _set_search_no_match s sw : ¬ matches s sw → _set_search s sw = sw.
Proof.
  intros Hno. unfold _set_search.
  destruct (list_find _ (items (_w sw))) as [[i y]|] eqn:Hfind; [|done].
  apply list_find_Some in Hfind as (Hi & Hy & _).
  destruct Hno. exists y. split; [by eapply list_elem_of_lookup_2|].
  by apply Is_true_true.
Qed.

Lemma matches_dec s sw : matches s sw ∨ ¬ matches s sw.
Proof.
  destruct (list_find (λ item, startswith (looked_field sw item) s)
              (items (_w sw))) as [[i y]|] eqn:Hfind.
  - apply list_find_Some in Hfind as (Hi & Hy & _).
    left. exists y. split; [by eapply list_elem_of_lookup_2|].
    by apply Is_true_true.
  - right. intros (item & Hin & Hitem).
    apply list_find_None in Hfind.
    eapply Forall_forall in Hfind; [|done]. by apply Hfind, Is_true_true.
Qed.

Lemma _set_search_ok s sw : search_ok sw → search_ok (_set_search s sw).
Proof.
  intros Hok. destruct (matches_dec s sw) as [Hs|Hs].
  - destruct (_set_search_match s sw Hs) as (i & _ & ->).
    right. destruct Hs as (item & ? & ?). by exists item.
  - by rewrite _set_search_no_match.
Qed.

(** One key press keeps the invariant when the wrapped widget, handling the
    key, keeps its items. *)
Lemma keypress_search_ok sz key sw :
  (∀ sz key w, items (wrapped_keypress sz key w).1 = items w) →
  search_ok sw → search_ok (keypress wrapped_keypress sz key sw).1.
Proof.
  intros Hitems Hok. unfold keypress.
  specialize (Hitems sz key (_w sw)).
  destruct (wrapped_keypress sz key (_w sw)) as [w [k|]]; simpl in Hitems;
    [|by left].
  assert (search_ok {| _w := w; looked_field := looked_field sw;
                       _search := _search sw |}) as Hok'.
  { destruct Hok as [?|(item & ? & ?)]; [by left|].
    right. exists item. simpl. by rewrite Hitems. }
  repeat case_decide; simpl; auto using _set_search_ok. by left.
Qed.

(** C7. A one-character key.  When the wrapped widget hands back a key [c]
    of one character, leaving itself as [w]: if the field of some item of
    [w] starts with [search + c], then [search] becomes [search + c] and the
    focus goes to the first position, counted from 0, whose item has such a
    field; if no field starts with [search + c], the wrapper keeps [search]
    and [w] keeps its focus. *)
Theorem keypress_character sz key sw w c :
  wrapped_keypress sz key (_w sw) = (w, Some c) →
  String.length c = 1%nat →
  let sw' := {| _w := w; looked_field := looked_field sw;
                _search := _search sw |} in
  (matches (search sw +:+ c) sw' →
   ∃ i, first_match (looked_field sw) (search sw +:+ c) w i ∧
        keypress wrapped_keypress sz key sw
        = ({| _w := set_focus i w; looked_field := looked_field sw;
              _search := search sw +:+ c |}, None)) ∧
  (¬ matches (search sw +:+ c) sw' →
   keypress wrapped_keypress sz key sw = (sw', None)).
Proof.
  intros Hw Hlen sw'. unfold keypress. rewrite Hw.
  pose proof (one_character_not_backspace c Hlen).
  rewrite decide_False, decide_True by done.
  change (search {| _w := w; looked_field := looked_field sw;
                    _search := _search sw |}) with (search sw).
  fold sw'. split.
  - intros Hm. destruct (_set_search_match _ _ Hm) as (i & Hi & ->).
    by exists i.
  - intros Hm. by rewrite _set_search_no_match.
Qed.

(** C8, as amended. Backspace.  When the wrapped widget hands back
    ['backspace'], leaving itself as [w]: an empty [search] stays empty;
    a non-empty [search] loses its last character, and the focus goes to
    the first match, when the field of some item starts with the shortened
    string; it is kept, with the focus, when no field does.  The field of
    an item that starts with [search] starts with the shortened string
    too. *)
Theorem keypress_backspace sz key sw w :
  wrapped_keypress sz key (_w sw) = (w, Some "backspace") →
  let sw' := {| _w := w; looked_field := looked_field sw;
                _search := _search sw |} in
  (search sw = "" → keypress wrapped_keypress sz key sw = (sw', None)) ∧
  (search sw ≠ "" → matches (drop_last (search sw)) sw' →
   ∃ i, first_match (looked_field sw) (drop_last (search sw)) w i ∧
        keypress wrapped_keypress sz key sw
        = ({| _w := set_focus i w; looked_field := looked_field sw;
              _search := drop_last (search sw) |}, None)) ∧
  (search sw ≠ "" → ¬ matches (drop_last (search sw)) sw' →
   keypress wrapped_keypress sz key sw = (sw', None)) ∧
  (matches (search sw) sw' → matches (drop_last (search sw)) sw').
Proof.
  intros Hw sw'. unfold keypress. rewrite Hw.
  rewrite decide_True by done.
  change (search {| _w := w; looked_field := looked_field sw;
                    _search := _search sw |}) with (search sw).
  fold sw'. split_and!.
  - intros Hs. by rewrite decide_True.
  - intros Hs Hm. rewrite decide_False by done.
    destruct (_set_search_match _ _ Hm) as (i & Hi & ->). by exists i.
  - intros Hs Hm. rewrite decide_False by done.
    by rewrite _set_search_no_match.
  - intros (item & Hin & Hitem). exists item. split; [done|].
    by apply prefix_drop_last.
Qed.

(** C9. The invariant of [search].  On a wrapper made over a widget whose
    own key handling never changes its items, after any run of key presses
    [search] is empty or the field of some item starts with it. *)
Theorem search_always_matches (keys : list (size * string)) w (field : A → string) :
  (∀ sz key w, items (wrapped_keypress sz key w).1 = items w) →
  search_ok (keypresses wrapped_keypress keys (wrap w field)).
Proof.
  intros Hitems. unfold keypresses.
  assert (search_ok (wrap w field)) as Hok by by left.
  revert Hok. generalize (wrap w field).
  induction keys as [|[sz key] keys IH]; intros sw Hok; simpl; [done|].
  by apply IH, keypress_search_ok.
Qed.

(** C10. What [keypress] returns.  When the wrapped widget hands back a key
    [k]: the wrapper returns [None] if [k] has one character or is
    ['backspace'], whatever became of the search; for any other [k] it
    returns [k] and empties [search]. *)
Theorem keypress_returns sz key sw w k :
  wrapped_keypress sz key (_w sw) = (w, Some k) →
  (String.length k = 1%nat ∨ k = "backspace" →
   (keypress wrapped_keypress sz key sw).2 = None) ∧
  (String.length k ≠ 1%nat → k ≠ "backspace" →
   (keypress wrapped_keypress sz key sw).2 = Some k ∧
   search (keypress wrapped_keypress sz key sw).1 = "").
Proof.
  intros Hw. unfold keypress. rewrite Hw. split.
  - intros [Hlen| ->].
    + pose proof (one_character_not_backspace k Hlen).
      by rewrite decide_False, decide_True.
    + by rewrite decide_True.
  - intros Hlen Hk. by rewrite !decide_False.
Qed.

End WrapperFacts.

(** ** The doctest of wrapper.py

    A [Pile] of five [Text] widgets, looked up by their text; the focus is
    printed after each key. *)

Example doctest_wrapper :
  let sz := [40; 40] in
  let sw0 := wrap (Container ["abc"; "aab"; "aaa"; "bcd"; "bdd"] 0) id in
  let sw1 := (keypress unused_keypress sz "b" sw0).1 in
  let sw2 := (keypress unused_keypress sz "b" sw1).1 in
  let sw3 := (keypress unused_keypress sz "escape" sw2).1 in
  let sw4 := (keypress unused_keypress sz "a" sw3).1 in
  let sw5 := (keypress unused_keypress sz "a" sw4).1 in
  (focus_item (_w sw0), search sw0) = (Some "abc", "") ∧
  (focus_item (_w sw1), search sw1) = (Some "bcd", "b") ∧
  (focus_item (_w sw2), search sw2) = (Some "bcd", "b") ∧
  (focus_item (_w sw3), search sw3) = (Some "bcd", "") ∧
  (focus_item (_w sw4), search sw4) = (Some "abc", "a") ∧
  (focus_item (_w sw5), search sw5) = (Some "aab", "aa").
Proof. repeat split; reflexivity. Qed.

Lemma keypress_character_witness :
  let sz := [40; 40] in
  let w := Container ["abc"; "aab"; "aaa"; "bcd"; "bdd"] 0 in
  let sw := wrap w id in
  unused_keypress sz "b" (_w sw) = (w, Some "b") ∧
  String.length "b" = 1%nat ∧
  let sw' := {| _w := w; looked_field := looked_field sw;
                _search := _search sw |} in
  (matches (search sw +:+ "b") sw' →
   ∃ i, first_match (looked_field sw) (search sw +:+ "b") w i ∧
        keypress unused_keypress sz "b" sw
        = ({| _w := set_focus i w; looked_field := looked_field sw;
              _search := search sw +:+ "b" |}, None)) ∧
  (¬ matches (search sw +:+ "b") sw' →
   keypress unused_keypress sz "b" sw = (sw', None)).
Proof.
  split; [reflexivity|]. split; [reflexivity|].
  exact (keypress_character unused_keypress [40; 40] "b"
           (wrap (Container ["abc"; "aab"; "aaa"; "bcd"; "bdd"] 0) id)
           (Container ["abc"; "aab"; "aaa"; "bcd"; "bdd"] 0) "b"
           eq_refl eq_refl).
Defined.

(** C8, as stated, fails when no field starts with the shortened string.
    Over the one item ["xyz"] the keys [x] and [y] set [search] to ["xy"];
    the owner of the wrapped widget then replaces its items by ["abc"];
    backspace now leaves [search] at ["xy"] instead of ["x"]. *)
Lemma backspace_keeps_unmatched_search :
  let sz := [40; 40] in
  let sw := keypresses unused_keypress [(sz, "x"); (sz, "y")]
              (wrap (Container ["xyz"] 0) id) in
  let sw' := {| _w := Container ["abc"] 0; looked_field := looked_field sw;
                _search := _search sw |} in
  search sw' = "xy" ∧
  search (keypress unused_keypress sz "backspace" sw').1 = "xy" ∧
  search (keypress unused_keypress sz "backspace" sw').1
  ≠ drop_last (search sw').
Proof. done. Qed.

Lemma keypress_backspace_witness :
  let sz := [40; 40] in
  let w := Container ["abc"; "aab"; "aaa"; "bcd"; "bdd"] 1 in
  let sw := {| _w := w; looked_field := id; _search := "aa" |} in
  unused_keypress sz "backspace" (_w sw) = (w, Some "backspace") ∧
  let sw' := {| _w := w; looked_field := looked_field sw;
                _search := _search sw |} in
  (search sw = "" → keypress unused_keypress sz "backspace" sw = (sw', None)) ∧
  (search sw ≠ "" → matches (drop_last (search sw)) sw' →
   ∃ i, first_match (looked_field sw) (drop_last (search sw)) w i ∧
        keypress unused_keypress sz "backspace" sw
        = ({| _w := set_focus i w; looked_field := looked_field sw;
              _search := drop_last (search sw) |}, None)) ∧
  (search sw ≠ "" → ¬ matches (drop_last (search sw)) sw' →
   keypress unused_keypress sz "backspace" sw = (sw', None)) ∧
  (matches (search sw) sw' → matches (drop_last (search sw)) sw').
Proof.
  split; [reflexivity|].
  exact (keypress_backspace unused_keypress [40; 40] "backspace"
           {| _w := Container ["abc"; "aab"; "aaa"; "bcd"; "bdd"] 1;
              looked_field := id; _search := "aa" |}
           (Container ["abc"; "aab"; "aaa"; "bcd"; "bdd"] 1) eq_refl).
Defined.

Lemma search_always_matches_witness :
  let sz := [40; 40] in
  (∀ sz key (w : container string),
     items (unused_keypress sz key w).1 = items w) ∧
  search_ok
    (keypresses unused_keypress
       [(sz, "b"); (sz, "b"); (sz, "escape"); (sz, "a"); (sz, "a");
        (sz, "backspace")]
       (wrap (Container ["abc"; "aab"; "aaa"; "bcd"; "bdd"] 0) id)).
Proof.
  split; [reflexivity|].
  exact (search_always_matches unused_keypress
           [([40; 40], "b"); ([40; 40], "b"); ([40; 40], "escape");
            ([40; 40], "a"); ([40; 40], "a"); ([40; 40], "backspace")]
           (Container ["abc"; "aab"; "aaa"; "bcd"; "bdd"] 0) id
           (λ _ _ _, eq_refl)).
Defined.

Lemma keypress_returns_witness :
  let sz := [40; 40] in
  let w := Container ["abc"; "aab"; "aaa"; "bcd"; "bdd"] 3 in
  let sw := {| _w := w; looked_field := id; _search := "b" |} in
  unused_keypress sz "escape" (_w sw) = (w, Some "escape") ∧
  (String.length "escape" = 1%nat ∨ "escape" = "backspace" →
   (keypress unused_keypress sz "escape" sw).2 = None) ∧
  (String.length "escape" ≠ 1%nat → "escape" ≠ "backspace" →
   (keypress unused_keypress sz "escape" sw).2 = Some "escape" ∧
   search (keypress unused_keypress sz "escape" sw).1 = "").
Proof.
  split; [reflexivity|].
  exact (keypress_returns unused_keypress [40; 40] "escape"
           {| _w := Container ["abc"; "aab"; "aaa"; "bcd"; "bdd"] 3;
              looked_field := id; _search := "b" |}
           (Container ["abc"; "aab"; "aaa"; "bcd"; "bdd"] 3) "escape" eq_refl).
Defined.

(** * Further properties of the two classes *)

(** ** A stable sorted list is unique *)

Section StableFacts.
Context {A K : Type} `{Comparable K}.
Implicit Types (key : A → K) (reverse : bool) (l : list A).

#[local] Existing Instance in_order_refl.
#[local] Existing Instance in_order_trans.

(** Two sorted lists that hold, for every key, the same items in the same
    order are one list. *)
Lemma sorted_stable_unique key reverse l1 l2 :
  sorted_by key reverse l1 → sorted_by key reverse l2 →
  (∀ k, filter (λ y, py_eq (key y) k) l1 = filter (λ y, py_eq (key y) k) l2) →
  l1 = l2.
Proof.
  rewrite !sorted_by_strongly. intros Hl1. revert l2.
  assert (∀ x, Is_true (py_eq (key x) (key x))) as Hrefl.
  { intros x. by apply Is_true_true, py_eq_true. }
  induction Hl1 as [|x l1 Hl1 IH Hx]; intros [|y l2] Hl2 Hf.
  - done.
  - specialize (Hf (key y)).
    by rewrite filter_nil, filter_cons_True in Hf by done.
  - specialize (Hf (key x)).
    by rewrite filter_nil, filter_cons_True in Hf by done.
  - apply StronglySorted_inv in Hl2 as [Hl2 Hy].
    assert (in_order key reverse y x) as Hyx.
    { assert (x ∈ y :: l2) as [->|Hin]%elem_of_cons; [|done|].
      - apply (list_elem_of_filter (λ z, py_eq (key z) (key x))).
        rewrite <-Hf, filter_cons_True by done. left.
      - by eapply Forall_forall in Hy. }
    assert (in_order key reverse x y) as Hxy.
    { assert (y ∈ x :: l1) as [->|Hin]%elem_of_cons; [|done|].
      - apply (list_elem_of_filter (λ z, py_eq (key z) (key y))).
        rewrite Hf, filter_cons_True by done. left.
      - by eapply Forall_forall in Hx. }
    pose proof (in_order_antisym key reverse x y Hxy Hyx) as Hkey.
    pose proof (Hf (key x)) as Hfx.
    rewrite !filter_cons_True in Hfx
      by (done || rewrite <-Hkey; apply Hrefl).
    injection Hfx as -> _. f_equal. apply IH; [done|].
    intros k. specialize (Hf k). rewrite !filter_cons in Hf.
    case_decide; by simplify_eq.
Qed.

(** Sorting a list that is sorted already changes nothing. *)
Lemma py_sorted_id key reverse l :
  sorted_by key reverse l → py_sorted key reverse l = l.
Proof.
  intros Hl. apply (sorted_stable_unique key reverse);
    [apply py_sorted_sorted|done|].
  intros k. apply py_sorted_stable.
Qed.
End StableFacts.

(** ** SortedFocusListWalker: what the list holds after a call *)

Section WalkerContents.
Context {A : Type} `{EqDecision A}.
Implicit Types (sw : SortedFocusListWalker A) (l : list A) (x y : A).

#[local] Existing Instance key_comparable.

(** X1. [add] never raises, keeps the key and the direction, and leaves
    the items it found plus the new one: nothing is lost, nothing is
    doubled, whether the walker was sorted or not. *)
Theorem add_keeps_items x sw :
  ∃ l f, add x sw = (with_list sw l f, Returned) ∧ l ≡ₚ x :: contents sw.
Proof.
  destruct (add_cut x sw) as (l1 & l2 & f & Hl & Heq & _).
  exists (l1 ++ x :: l2), f. split; [done|].
  by rewrite Hl, Permutation_middle.
Qed.

Lemma for_each_add_perm items sw :
  ∃ l f, for_each add items sw = (with_list sw l f, Returned) ∧
         l ≡ₚ contents sw ++ items.
Proof.
  revert sw. induction items as [|x items IH]; intros sw; simpl.
  - exists (contents sw), (focus sw). rewrite app_nil_r. by destruct sw.
  - destruct (add_cut x sw) as (l1 & l2 & f & Hl & -> & _).
    destruct (IH (with_list sw (l1 ++ x :: l2) f)) as (l & f' & -> & Hperm).
    exists l, f'. split; [done|].
    rewrite Hperm; simpl. rewrite Hl, <-!app_assoc. f_equiv.
    apply Permutation_middle.
Qed.

(** X2. [extend] never raises, keeps the key and the direction, and leaves
    the items it found plus the new ones, whatever the order of the new
    ones and whether the walker was sorted or not. *)
Theorem extend_keeps_items items sw :
  ∃ l f, extend items sw = (with_list sw l f, Returned) ∧
         l ≡ₚ contents sw ++ items.
Proof.
  unfold extend.
  destruct (for_each_add_perm
              (py_sorted (sorting_key sw) (reverse sw) items) sw)
    as (l & f & Heq & Hperm).
  exists l, f. split; [done|]. by rewrite Hperm, py_sorted_perm.
Qed.

(** In descending order the new item ends up in front of the items with
    its key. *)
Lemma add_descending_front x sw (k : key_type sw) :
  reverse sw = true →
  filter (λ y, py_eq (sorting_key sw y) k) (contents (add x sw).1)
  = filter (λ y, py_eq (sorting_key sw y) k) (x :: contents sw).
Proof.
  intros Hrev.
  destruct (add_cut x sw) as (l1 & l2 & f & Hl & -> & Hl1 & _); simpl.
  rewrite Hl, filter_app, !filter_cons, filter_app.
  case_decide as Hx; [|done].
  apply Is_true_true, py_eq_true in Hx.
  assert (filter (λ y, py_eq (sorting_key sw y) k) l1 = []) as ->; [|done].
  clear Hl. induction Hl1 as [|z l1 Hz _ IH]; [done|].
  rewrite filter_cons, IH. case_decide as Hzk; [|done].
  apply Is_true_true, py_eq_true in Hzk.
  unfold stops_at, py_gt in Hz.
  by rewrite Hrev, Hx, <-Hzk, py_lt_irrefl in Hz.
Qed.

Lemma add_filter x sw (k : key_type sw) :
  is_sorted sw →
  filter (λ y, py_eq (sorting_key sw y) k) (contents (add x sw).1)
  = filter (λ y, py_eq (sorting_key sw y) k)
      (arrival (reverse sw) (contents sw) [x]).
Proof.
  intros Hsw. unfold arrival. destruct (reverse sw) eqn:Hrev.
  - by apply add_descending_front.
  - by apply add_ascending_stable.
Qed.

Lemma for_each_add_filter items sw :
  is_sorted sw →
  ∃ l f,
    for_each add items sw = (with_list sw l f, Returned) ∧
    sorted_by (sorting_key sw) (reverse sw) l ∧
    ∀ k, filter (λ y, py_eq (sorting_key sw y) k) l
         = filter (λ y, py_eq (sorting_key sw y) k)
             (arrival (reverse sw) (contents sw) items).
Proof.
  revert sw. induction items as [|x items IH]; intros sw Hsw; simpl.
  - exists (contents sw), (focus sw). split_and!; [by destruct sw|done|].
    intros k. unfold arrival. destruct (reverse sw); [done|].
    by rewrite app_nil_r.
  - pose proof (add_sorted x sw Hsw) as Hadd.
    pose proof (λ k, add_filter x sw k Hsw) as Hfilter.
    destruct (add_cut x sw) as (l1 & l2 & f & _ & Heq & _).
    rewrite Heq in Hadd, Hfilter |- *. simpl in Hadd, Hfilter.
    destruct (IH _ Hadd) as (l & f' & -> & Hsorted & Hl).
    exists l, f'. split_and!; [done..|].
    intros k. rewrite Hl; simpl. unfold arrival in *.
    destruct (reverse sw).
    + simpl. rewrite <-app_assoc, !filter_app. f_equal.
      rewrite <-!filter_app. apply Hfilter.
    + by rewrite filter_app, Hfilter, <-filter_app, <-app_assoc.
Qed.

(** X3. On a sorted walker, [add] leaves the list that the stable sort
    makes of the old items and the new one, with the new item counted as
    the last arrival in ascending order and as the first in descending
    order: among the items with its key it goes to the end with
    [reverse=False] and to the front with [reverse=True]. *)
Theorem add_is_stable_insertion x sw :
  is_sorted sw →
  contents (add x sw).1
  = py_sorted (sorting_key sw) (reverse sw)
      (if reverse sw then x :: contents sw else contents sw ++ [x]).
Proof.
  intros Hsw.
  pose proof (add_sorted x sw Hsw) as Hadd.
  pose proof (λ k, add_filter x sw k Hsw) as Hfilter.
  destruct (add_cut x sw) as (l1 & l2 & f & _ & Heq & _).
  rewrite Heq in Hadd, Hfilter |- *. simpl in *.
  apply (sorted_stable_unique (sorting_key sw) (reverse sw));
    [done|apply py_sorted_sorted|].
  intros k. rewrite py_sorted_stable, Hfilter. unfold arrival.
  by destruct (reverse sw).
Qed.

(** X4. On a sorted walker in ascending order, [extend(items)] leaves the
    list that the stable [sorted] makes of the old items followed by
    [items]: new items go behind the old ones with their key and keep the
    order of [items] among themselves. *)
Theorem extend_ascending_is_sorted_concat items sw :
  reverse sw = false → is_sorted sw →
  contents (extend items sw).1
  = py_sorted (sorting_key sw) false (contents sw ++ items).
Proof.
  intros Hrev Hsw. unfold extend.
  destruct (for_each_add_filter
              (py_sorted (sorting_key sw) (reverse sw) items) sw Hsw)
    as (l & f & -> & Hsorted & Hl).
  simpl. rewrite Hrev in *.
  apply (sorted_stable_unique (sorting_key sw) false);
    [done|apply py_sorted_sorted|].
  intros k. rewrite Hl, py_sorted_stable. unfold arrival.
  by rewrite !filter_app, py_sorted_stable.
Qed.

(** X5. In ascending order, building a walker and extending it gives the
    list that the constructor builds from all the items at once. *)
Theorem init_extend_ascending `{Comparable K} (key : A → K) l items :
  contents (extend items (init l key false)).1
  = contents (init (l ++ items) key false).
Proof.
  set (sw := init l key false).
  assert (is_sorted sw) as Hsw by apply py_sorted_sorted.
  destruct (for_each_add_filter
              (@py_sorted A (key_type sw) (key_comparable sw)
                 (sorting_key sw) (reverse sw) items) sw Hsw)
    as (l' & f & Heq & Hsorted & Hl').
  unfold extend. rewrite Heq. simpl in *.
  apply (sorted_stable_unique key false); [done|apply py_sorted_sorted|].
  intros k. rewrite Hl', py_sorted_stable. unfold arrival.
  by rewrite !filter_app, !py_sorted_stable.
Qed.

End WalkerContents.

(** ** SortedFocusListWalker: the order in which new items are given *)

(** Lists of the same items, all equal to one another, are equal. *)
Lemma all_equal_perm {B} (l1 l2 : list B) :
  l1 ≡ₚ l2 → (∀ a b, a ∈ l1 → b ∈ l1 → a = b) → l1 = l2.
Proof.
  revert l2. induction l1 as [|x l1 IH]; intros l2 Hperm Heq.
  - by apply Permutation_nil_l in Hperm.
  - destruct l2 as [|y l2]; [by apply Permutation_nil_r in Hperm|].
    assert (y = x) as ->.
    { apply Heq; [|left]. rewrite Hperm. left. }
    f_equal. apply IH; [by eapply Permutation_cons_inv|].
    intros a b Ha Hb. apply Heq; by right.
Qed.

Section ExtendOrder.
Context {A : Type} `{EqDecision A}.
Implicit Types (sw : SortedFocusListWalker A) (l : list A).

#[local] Existing Instance key_comparable.

(** Among items of which no two different ones have one key, the items
    with a given key come out the same from every arrangement. *)
Lemma filter_key_perm `{Comparable K} (key : A → K) (k : K) l1 l2 :
  l1 ≡ₚ l2 →
  (∀ a b, a ∈ l1 → b ∈ l1 → key a = key b → a = b) →
  filter (λ y, py_eq (key y) k) l1 = filter (λ y, py_eq (key y) k) l2.
Proof.
  intros Hperm Hinj. apply all_equal_perm; [by rewrite Hperm|].
  intros a b [Ha ?]%list_elem_of_filter [Hb ?]%list_elem_of_filter.
  apply Is_true_true, py_eq_true in Ha. apply Is_true_true, py_eq_true in Hb.
  apply Hinj; congruence.
Qed.

(** C4, as amended.  When no two different items among the new ones have
    the same key, [extend] on a sorted walker leaves the contents that
    [add] leaves when called on the new items one by one in any order;
    the items already in the walker may share keys with one another and
    with the new ones. *)
Theorem extend_order_independent_distinct_keys items sw :
  is_sorted sw →
  (∀ a b, a ∈ items → b ∈ items →
          sorting_key sw a = sorting_key sw b → a = b) →
  extend_order_independent items sw.
Proof.
  intros Hsw Hinj items' Hperm. unfold extend.
  destruct (for_each_add_filter
              (py_sorted (sorting_key sw) (reverse sw) items) sw Hsw)
    as (l & f & -> & Hsorted & Hl).
  destruct (for_each_add_filter items' sw Hsw)
    as (l' & f' & -> & Hsorted' & Hl').
  simpl. apply (sorted_stable_unique (sorting_key sw) (reverse sw)); [done..|].
  intros k. rewrite Hl, Hl'. unfold arrival.
  destruct (reverse sw); rewrite !filter_app; f_equal.
  - apply filter_key_perm.
    + by rewrite <-!Permutation_rev, py_sorted_perm, Hperm.
    + intros a b Ha Hb. apply Hinj.
      * by rewrite <-Permutation_rev, py_sorted_perm in Ha.
      * by rewrite <-Permutation_rev, py_sorted_perm in Hb.
  - apply filter_key_perm.
    + by rewrite py_sorted_perm, Hperm.
    + intros a b Ha Hb. apply Hinj.
      * by rewrite py_sorted_perm in Ha.
      * by rewrite py_sorted_perm in Hb.
Qed.

End ExtendOrder.

(** The walker holds two items with key 1 and one with key 3, and takes
    new items with the keys 1, 3 and 2. *)
Lemma extend_order_independent_distinct_keys_witness :
  let sw := init [(1, 0); (1, 1); (3, 0)] fst false in
  is_sorted sw ∧
  (∀ a b, a ∈ [(1, 7); (3, 9); (2, 2)] → b ∈ [(1, 7); (3, 9); (2, 2)] →
          sorting_key sw a = sorting_key sw b → a = b) ∧
  extend_order_independent [(1, 7); (3, 9); (2, 2)] sw.
Proof.
  assert (is_sorted (init [(1, 0); (1, 1); (3, 0)] fst false)) as Hsorted
    by (repeat constructor).
  assert (∀ a b : Z * Z,
            a ∈ [(1, 7); (3, 9); (2, 2)] → b ∈ [(1, 7); (3, 9); (2, 2)] →
            sorting_key (init [(1, 0); (1, 1); (3, 0)] fst false) a
            = sorting_key (init [(1, 0); (1, 1); (3, 0)] fst false) b →
            a = b) as Hkeys.
  { intros a b Ha%list_elem_of_In Hb%list_elem_of_In Hab. simpl in *.
    destruct Ha as [<-|[<-|[<-|[]]]], Hb as [<-|[<-|[<-|[]]]];
      simpl in Hab; congruence. }
  split; [exact Hsorted|]. split; [exact Hkeys|].
  exact (extend_order_independent_distinct_keys
           [(1, 7); (3, 9); (2, 2)]
           (init [(1, 0); (1, 1); (3, 0)] fst false) Hsorted Hkeys).
Defined.

(** A deletion that empties the list leaves the focus where the next item
    takes it: replacing the only item keeps the focus on index 0. *)
Example setitem_only_item :
  let sw := (setitem (Int 0) 7 (init [5] id false)).1 in
  (contents sw, get_focus sw) = ([7], Some 0) ∧
  get_focus (delitem 0 (init [5] id false)).1 = None.
Proof. split; reflexivity. Qed.

(** ** SortedFocusListWalker: replacing, re-sorting, and the focus *)

Section WalkerCalls.
Context {A : Type} `{EqDecision A}.
Implicit Types (sw : SortedFocusListWalker A) (l : list A) (x y : A).

#[local] Existing Instance key_comparable.

Lemma py_index_in_range (len i : Z) :
  - len ≤ i < len →
  let j := Z.to_nat (if i <? 0 then i + len else i) in
  py_index len i = Some j ∧ (j < Z.to_nat len)%nat.
Proof.
  intros Hi. unfold py_index.
  destruct (Z.ltb_spec i 0).
  - rewrite (proj2 (Z.leb_le 0 (i + len))), (proj2 (Z.ltb_lt (i + len) len))
      by lia. split; [done|lia].
  - rewrite (proj2 (Z.leb_le 0 i)), (proj2 (Z.ltb_lt i len)) by lia.
    split; [done|lia].
Qed.

(** X6. [self[i] = y] with an integer [i] in range, counted from the end
    when negative, returns normally and leaves the items of the list with
    the one at position [i] replaced by [y]; the new item stands where the
    order puts it, which need not be position [i]. *)
Theorem setitem_replaces (i : Z) y sw :
  - Z.of_nat (length (contents sw)) ≤ i < Z.of_nat (length (contents sw)) →
  ∃ l f,
    setitem (Int i) y sw = (with_list sw l f, Returned) ∧
    l ≡ₚ <[Z.to_nat (if i <? 0 then i + Z.of_nat (length (contents sw)) else i)
           := y]> (contents sw).
Proof.
  intros Hi. destruct (py_index_in_range _ _ Hi) as [Hj Hlt].
  rewrite Nat2Z.id in Hlt.
  set (j := Z.to_nat _) in *. unfold setitem, delitem. rewrite Hj.
  match goal with
  | |- context [add y ?sw1] =>
      destruct (add_cut y sw1) as (l1 & l2 & f & Hl & -> & _)
  end.
  simpl in Hl. exists (l1 ++ y :: l2), f. split; [done|].
  rewrite insert_take_drop, <-!Permutation_middle by done. f_equiv.
  by rewrite <-Hl, delete_take_drop.
Qed.

(** X7. [self[i] = y] with an integer [i] out of range raises IndexError
    from the deletion, before [y] is added: the walker is as it was. *)
Theorem setitem_out_of_range (i : Z) y sw :
  i < - Z.of_nat (length (contents sw)) ∨ Z.of_nat (length (contents sw)) ≤ i →
  setitem (Int i) y sw = (sw, Raised IndexError).
Proof.
  intros Hi. unfold setitem, delitem, py_index.
  destruct (Z.ltb_spec i 0).
  - by rewrite (proj2 (Z.leb_gt 0 (i + _))) by lia.
  - rewrite (proj2 (Z.ltb_ge i _)) by lia. by rewrite andb_false_r.
Qed.

(** X8. [sort(key, rev)] on an empty walker, or on one whose focus is on
    an item, returns normally; the list is then the stable sort of the old
    one under the new key and direction, it is sorted under them, and it
    stays sorted under them through any later run of [add], [extend],
    [self[i] = y], [+=], [append], [insert] and [*=]. *)
Theorem sort_sorts `{Comparable K} (key : A → K) (rev : bool) sw
    (ms : list (mutation A)) :
  contents sw = [] ∨ is_Some (py_getitem (contents sw) (focus sw)) →
  (sort key rev sw).2 = Returned ∧
  contents (sort key rev sw).1 = py_sorted key rev (contents sw) ∧
  is_sorted (sort key rev sw).1 ∧
  is_sorted (run ms (sort key rev sw).1).
Proof.
  intros Hfocus.
  assert ((sort key rev sw).2 = Returned ∧
          contents (sort key rev sw).1 = py_sorted key rev (contents sw) ∧
          is_sorted (sort key rev sw).1) as (Hret & Hcontents & Hsorted).
  { unfold sort, super_sort; simpl.
    destruct (contents sw) as [|x l] eqn:Hl.
    { split_and!; [done..|]. constructor. }
    destruct Hfocus as [?|[value Hvalue]]; [done|].
    rewrite <-Hl in *. clear Hl. rewrite Hvalue.
    assert (value ∈ contents sw) as Hin.
    { unfold py_getitem in Hvalue.
      destruct (py_index _ _) as [j|]; simplify_eq/=.
      by eapply list_elem_of_lookup_2. }
    destruct (list_find_elem_of (λ item, item = value)
                (py_sorted key rev (contents sw)) value) as [[i z] ->];
      [by rewrite py_sorted_perm|done|].
    split_and!; [done..|]. apply py_sorted_sorted. }
  split_and!; [done..|]. by apply run_sorted.
Qed.

(** An insertion leaves the focus on the item that had it. *)
Lemma add_focus_kept x sw value :
  0 ≤ focus sw → contents sw !! Z.to_nat (focus sw) = Some value →
  ∃ l f, add x sw = (with_list sw l f, Returned) ∧
         0 ≤ f ∧ l !! Z.to_nat f = Some value.
Proof.
  intros Hf Hvalue. pose proof (lookup_lt_Some _ _ _ Hvalue) as Hlen.
  unfold add.
  destruct (list_find _ (contents sw)) as [[i z]|] eqn:Hfind.
  - apply list_find_Some in Hfind as (Hi%lookup_lt_Some & _).
    eexists _, _. split; [done|]. unfold adjust_focus.
    destruct (Z.leb_spec (Z.of_nat i + 1) (focus sw)),
             (Z.ltb_spec (focus sw) (Z.of_nat i)); simpl; try lia.
    + destruct (Z.leb_spec (Z.of_nat i) (focus sw)); [|lia].
      split; [lia|].
      replace (Z.to_nat (Z.min _ _)) with (S (Z.to_nat (focus sw))) by lia.
      rewrite lookup_app_r by (rewrite length_take; lia).
      rewrite length_take, Nat.min_l by lia.
      replace (S (Z.to_nat (focus sw)) - i)%nat
        with (S (Z.to_nat (focus sw) - i)) by lia.
      simpl. rewrite lookup_drop, <-Hvalue. f_equal. lia.
    + destruct (Z.leb_spec (Z.of_nat i) (focus sw)); [lia|].
      split; [lia|].
      replace (Z.to_nat (Z.min _ _)) with (Z.to_nat (focus sw)) by lia.
      rewrite lookup_app_l by (rewrite length_take; lia).
      rewrite lookup_take_lt by lia. done.
    + destruct (Z.leb_spec (Z.of_nat i) (focus sw)); [|lia].
      split; [lia|].
      replace (Z.to_nat (Z.min _ _)) with (S (Z.to_nat (focus sw))) by lia.
      rewrite lookup_app_r by (rewrite length_take; lia).
      rewrite length_take, Nat.min_l by lia.
      replace (S (Z.to_nat (focus sw)) - i)%nat
        with (S (Z.to_nat (focus sw) - i)) by lia.
      simpl. rewrite lookup_drop, <-Hvalue. f_equal. lia.
  - eexists _, _. split; [done|]. unfold adjust_focus.
    set (len := Z.of_nat (length (contents sw))).
    assert (focus sw < len) by (unfold len; lia).
    destruct (Z.leb_spec (len + 1) (focus sw)); [lia|]. simpl.
    destruct (Z.leb_spec len (focus sw)); [lia|].
    split; [lia|].
    replace (Z.to_nat (Z.min _ _)) with (Z.to_nat (focus sw)) by lia.
    by rewrite lookup_app_l by lia.
Qed.

Lemma for_each_add_focus_kept items sw value :
  0 ≤ focus sw → contents sw !! Z.to_nat (focus sw) = Some value →
  ∃ l f, for_each add items sw = (with_list sw l f, Returned) ∧
         0 ≤ f ∧ l !! Z.to_nat f = Some value.
Proof.
  revert sw. induction items as [|x items IH]; intros sw Hf Hvalue; simpl.
  - exists (contents sw), (focus sw). by destruct sw.
  - destruct (add_focus_kept x sw value Hf Hvalue) as (l & f & -> & Hf' & Hl).
    destruct (IH (with_list sw l f) Hf' Hl) as (l' & f' & -> & ? & ?).
    by exists l', f'.
Qed.

(** X9. When the focus is on an item, [add] and [extend] leave it on that
    item: the index moves up by one for every item that goes in at or
    before it. *)
Theorem insertions_keep_focused_item x items sw value :
  0 ≤ focus sw → contents sw !! Z.to_nat (focus sw) = Some value →
  (0 ≤ focus (add x sw).1 ∧
   contents (add x sw).1 !! Z.to_nat (focus (add x sw).1) = Some value) ∧
  (0 ≤ focus (extend items sw).1 ∧
   contents (extend items sw).1 !! Z.to_nat (focus (extend items sw).1)
   = Some value).
Proof.
  intros Hf Hvalue. split.
  - by destruct (add_focus_kept x sw value Hf Hvalue) as (l & f & -> & ? & ?).
  - unfold extend.
    by destruct (for_each_add_focus_kept
                   (py_sorted (sorting_key sw) (reverse sw) items)
                   sw value Hf Hvalue) as (l & f & -> & ? & ?).
Qed.

End WalkerCalls.

(** ** SearchableWidgetWrapper: keys, focus and round trips *)

Lemma drop_last_app (s c : string) :
  String.length c = 1%nat → drop_last (s +:+ c) = s.
Proof.
  destruct c as [|a [|]]; try done. intros _.
  induction s as [|b s IH]; [done|].
  change (String b s +:+ String a "") with (String b (s +:+ String a "")).
  destruct s as [|b' s]; [done|].
  change (String b' s +:+ String a "")
    with (String b' (s +:+ String a "")) in *.
  simpl in *. by rewrite IH.
Qed.

Lemma app_one_character_not_empty (s c : string) :
  String.length c = 1%nat → s +:+ c ≠ "".
Proof. destruct c; [done|]. by destruct s. Qed.

Lemma startswith_empty (label : string) : startswith label "" = true.
Proof. by destruct label. Qed.

Section WrapperCalls.
Context {A : Type}.
Variable wrapped_keypress : size → string → container A → container A * option string.
Implicit Types (sw : SearchableWidgetWrapper A) (w : container A) (s key : string).

(** [_set_search] either changes nothing, or commits the string and puts
    the focus on an item whose field starts with it. *)
Lemma _set_search_cases s sw :
  _set_search s sw = sw ∨
  ∃ i item,
    items (_w sw) !! i = Some item ∧
    startswith (looked_field sw item) s = true ∧
    _set_search s sw
    = {| _w := set_focus i (_w sw); looked_field := looked_field sw;
         _search := s |}.
Proof.
  destruct (matches_dec s sw) as [Hm|Hm].
  - right. destruct (_set_search_match s sw Hm)
      as (i & [(item & ? & ?) _] & ->). by exists i, item.
  - left. by apply _set_search_no_match.
Qed.

(** X10. A key that [keypress] returns is the key the wrapped widget
    handed back; it is neither ['backspace'] nor one character long, and
    [search] is empty after the call: no key used for the search is passed
    on. *)
Theorem keypress_hands_back sz key sw k :
  (keypress wrapped_keypress sz key sw).2 = Some k →
  (wrapped_keypress sz key (_w sw)).2 = Some k ∧
  k ≠ "backspace" ∧ String.length k ≠ 1%nat ∧
  keypress wrapped_keypress sz key sw
  = ({| _w := (wrapped_keypress sz key (_w sw)).1;
        looked_field := looked_field sw; _search := "" |}, Some k).
Proof.
  unfold keypress.
  destruct (wrapped_keypress sz key (_w sw)) as [w [k'|]]; simpl; [|done].
  repeat case_decide; simpl; try done.
  by intros [= ->].
Qed.

(** X11. [keypress] never changes the items of the wrapped widget nor the
    looked-up field, and it touches the widget only to put the focus on an
    item whose field starts with the new [search]; otherwise the widget is
    as its own key handling left it. *)
Theorem keypress_keeps_items sz key sw :
  let w := (wrapped_keypress sz key (_w sw)).1 in
  let sw' := (keypress wrapped_keypress sz key sw).1 in
  items (_w sw') = items w ∧
  looked_field sw' = looked_field sw ∧
  (_w sw' = w ∨
   ∃ item, focus_item (_w sw') = Some item ∧
           startswith (looked_field sw item) (search sw') = true).
Proof.
  unfold keypress.
  destruct (wrapped_keypress sz key (_w sw)) as [w [k|]]; simpl; [|by auto].
  assert (∀ s,
            let sw1 := {| _w := w; looked_field := looked_field sw;
                          _search := _search sw |} in
            items (_w (_set_search s sw1)) = items w ∧
            looked_field (_set_search s sw1) = looked_field sw ∧
            (_w (_set_search s sw1) = w ∨
             ∃ item, focus_item (_w (_set_search s sw1)) = Some item ∧
                     startswith (looked_field sw item)
                       (search (_set_search s sw1)) = true)) as Hset.
  { intros s sw1.
    destruct (_set_search_cases s sw1) as [->|(i & item & Hi & Hitem & ->)];
      [by auto|].
    split_and!; [done..|]. right. by exists item. }
  repeat case_decide; simpl; auto.
Qed.

Lemma keypress_focus_ok sz key sw :
  (∀ sz key w w' k, wrapped_keypress sz key w = (w', Some k) → w' = w) →
  focus_ok sw → focus_ok (keypress wrapped_keypress sz key sw).1.
Proof.
  intros Hpass Hok. unfold keypress.
  destruct (wrapped_keypress sz key (_w sw)) as [w [k|]] eqn:Hw; [|by left].
  apply Hpass in Hw as ->.
  assert ({| _w := _w sw; looked_field := looked_field sw;
             _search := _search sw |} = sw) as -> by by destruct sw.
  assert (∀ s, focus_ok (_set_search s sw)) as Hset.
  { intros s.
    destruct (_set_search_cases s sw) as [->|(i & item & Hi & Hitem & ->)];
      [done|].
    right. by exists item. }
  repeat case_decide; simpl; auto. by left.
Qed.

(** X12. On a wrapper made over a widget that, when it hands a key back,
    has not changed, after any run of key presses [search] is empty or
    the item in focus has a field that starts with [search]. *)
Theorem focus_always_matches (keys : list (size * string)) w (field : A → string) :
  (∀ sz key w w' k, wrapped_keypress sz key w = (w', Some k) → w' = w) →
  focus_ok (keypresses wrapped_keypress keys (wrap w field)).
Proof.
  intros Hpass. unfold keypresses.
  assert (focus_ok (wrap w field)) as Hok by by left.
  revert Hok. generalize (wrap w field).
  induction keys as [|[sz key] keys IH]; intros sw Hok; simpl; [done|].
  by apply IH, keypress_focus_ok.
Qed.

(** X13. A character that is accepted and a backspace after it bring
    [search] back to what it was, when the wrapped widget hands both keys
    back without changing. *)
Theorem type_then_backspace sz c sw :
  String.length c = 1%nat →
  (∀ w, wrapped_keypress sz c w = (w, Some c)) →
  (∀ w, wrapped_keypress sz "backspace" w = (w, Some "backspace")) →
  matches (search sw +:+ c) sw →
  search (keypress wrapped_keypress sz c sw).1 = search sw +:+ c ∧
  search (keypress wrapped_keypress sz "backspace"
            (keypress wrapped_keypress sz c sw).1).1 = search sw.
Proof.
  intros Hlen Hc Hback Hm.
  pose proof (one_character_not_backspace c Hlen).
  assert ({| _w := _w sw; looked_field := looked_field sw;
             _search := _search sw |} = sw) as Heta by by destruct sw.
  unfold keypress at 1 3. rewrite Hc, Heta.
  rewrite decide_False, decide_True by done. simpl.
  destruct (_set_search_match _ _ Hm) as (i & _ & ->).
  split; [done|].
  unfold keypress. rewrite Hback. simpl.
  rewrite decide_False by by apply app_one_character_not_empty.
  rewrite drop_last_app by done.
  match goal with
  | |- search (_set_search _ ?sw1) = _ =>
      destruct (_set_search_match (search sw) sw1) as (j & _ & ->); [|done]
  end.
  destruct Hm as (item & Hin & Hitem). exists item. split; [done|].
  simpl. apply prefix_drop_last in Hitem. by rewrite drop_last_app in Hitem.
Qed.

(** X14. Backspace on a [search] of one character, over a widget that has
    items, empties [search] and puts the focus on the first item, since
    every field starts with the empty string. *)
Theorem backspace_to_empty_focuses_first sz key sw w item rest :
  wrapped_keypress sz key (_w sw) = (w, Some "backspace") →
  String.length (search sw) = 1%nat →
  items w = item :: rest →
  keypress wrapped_keypress sz key sw
  = ({| _w := set_focus 0 w; looked_field := looked_field sw;
        _search := "" |}, None).
Proof.
  intros Hw Hlen Hitems. unfold keypress. rewrite Hw.
  rewrite decide_True by done. unfold search in *. simpl.
  destruct (_search sw) as [|a [|]] eqn:Hs; try done.
  rewrite decide_False by done. simpl.
  unfold _set_search; simpl. rewrite Hitems; simpl.
  by rewrite decide_True by (by rewrite startswith_empty).
Qed.

End WrapperCalls.

(** ** The further properties on the lists of the doctests *)

Lemma add_is_stable_insertion_witness :
  let sw := init [(1, 10); (4, 2); (0, 7)] snd true in
  is_sorted sw ∧
  contents (add (100, 4) sw).1
  = py_sorted (sorting_key sw) (reverse sw)
      (if reverse sw then (100, 4) :: contents sw
       else contents sw ++ [(100, 4)]).
Proof.
  assert (is_sorted (init [(1, 10); (4, 2); (0, 7)] snd true)) as Hsorted
    by (repeat constructor).
  split; [exact Hsorted|].
  exact (add_is_stable_insertion (100, 4)
           (init [(1, 10); (4, 2); (0, 7)] snd true) Hsorted).
Defined.

Lemma extend_ascending_is_sorted_concat_witness :
  let sw := init [1; 10] id false in
  reverse sw = false ∧ is_sorted sw ∧
  contents (extend [0; 2; -10; 14] sw).1
  = py_sorted (sorting_key sw) false (contents sw ++ [0; 2; -10; 14]).
Proof.
  assert (is_sorted (init [1; 10] id false)) as Hsorted
    by (repeat constructor).
  split; [reflexivity|]. split; [exact Hsorted|].
  exact (extend_ascending_is_sorted_concat [0; 2; -10; 14]
           (init [1; 10] id false) eq_refl Hsorted).
Defined.

Lemma setitem_replaces_witness :
  let sw := init [1; 4; 2; 7; 3] id false in
  (- Z.of_nat (length (contents sw)) ≤ -1 < Z.of_nat (length (contents sw))) ∧
  ∃ l f,
    setitem (Int (-1)) 0 sw = (with_list sw l f, Returned) ∧
    l ≡ₚ <[Z.to_nat (if -1 <? 0 then -1 + Z.of_nat (length (contents sw))
                     else -1) := 0]> (contents sw).
Proof.
  assert (- Z.of_nat (length (contents (init [1; 4; 2; 7; 3] id false))) ≤ -1
          < Z.of_nat (length (contents (init [1; 4; 2; 7; 3] id false))))
    as Hrange by (simpl; lia).
  split; [exact Hrange|].
  exact (setitem_replaces (-1) 0 (init [1; 4; 2; 7; 3] id false) Hrange).
Defined.

Lemma setitem_out_of_range_witness :
  let sw := init [1; 4; 2; 7; 3] id false in
  (5 < - Z.of_nat (length (contents sw)) ∨ Z.of_nat (length (contents sw)) ≤ 5) ∧
  setitem (Int 5) 0 sw = (sw, Raised IndexError).
Proof.
  assert (5 < - Z.of_nat (length (contents (init [1; 4; 2; 7; 3] id false))) ∨
          Z.of_nat (length (contents (init [1; 4; 2; 7; 3] id false))) ≤ 5)
    as Hrange by (right; simpl; lia).
  split; [exact Hrange|].
  exact (setitem_out_of_range 5 0 (init [1; 4; 2; 7; 3] id false) Hrange).
Defined.

Lemma sort_sorts_witness :
  let sw := init [(-1, 10); (30, -5); (4, 20); (0, 7)] id false in
  (contents sw = [] ∨ is_Some (py_getitem (contents sw) (focus sw))) ∧
  (sort snd false sw).2 = Returned ∧
  contents (sort snd false sw).1 = py_sorted snd false (contents sw) ∧
  is_sorted (sort snd false sw).1 ∧
  is_sorted (run [Add (2, 2)] (sort snd false sw).1).
Proof.
  assert (contents (init [(-1, 10); (30, -5); (4, 20); (0, 7)] id false) = [] ∨
          is_Some (py_getitem
                     (contents (init [(-1, 10); (30, -5); (4, 20); (0, 7)]
                                  id false))
                     (focus (init [(-1, 10); (30, -5); (4, 20); (0, 7)]
                               id false)))) as Hfocus
    by (right; exists (-1, 10); reflexivity).
  split; [exact Hfocus|].
  exact (sort_sorts snd false
           (init [(-1, 10); (30, -5); (4, 20); (0, 7)] id false)
           [Add (2, 2)] Hfocus).
Defined.

Lemma insertions_keep_focused_item_witness :
  let sw := init [1; 10] id false in
  0 ≤ focus sw ∧ contents sw !! Z.to_nat (focus sw) = Some 1 ∧
  (0 ≤ focus (add 0 sw).1 ∧
   contents (add 0 sw).1 !! Z.to_nat (focus (add 0 sw).1) = Some 1) ∧
  (0 ≤ focus (extend [0; 2; -10; 14] sw).1 ∧
   contents (extend [0; 2; -10; 14] sw).1
     !! Z.to_nat (focus (extend [0; 2; -10; 14] sw).1) = Some 1).
Proof.
  assert (0 ≤ focus (init [1; 10] id false)) as Hfocus by (simpl; lia).
  split; [exact Hfocus|]. split; [reflexivity|].
  exact (insertions_keep_focused_item 0 [0; 2; -10; 14]
           (init [1; 10] id false) 1 Hfocus eq_refl).
Defined.

Lemma keypress_hands_back_witness :
  let sz := [40; 40] in
  let w := Container ["abc"; "aab"; "aaa"; "bcd"; "bdd"] 3 in
  let sw := {| _w := w; looked_field := id; _search := "b" |} in
  (keypress unused_keypress sz "escape" sw).2 = Some "escape" ∧
  (unused_keypress sz "escape" (_w sw)).2 = Some "escape" ∧
  "escape" ≠ "backspace" ∧ String.length "escape" ≠ 1%nat ∧
  keypress unused_keypress sz "escape" sw
  = ({| _w := (unused_keypress sz "escape" (_w sw)).1;
        looked_field := looked_field sw; _search := "" |}, Some "escape").
Proof.
  split; [reflexivity|].
  exact (keypress_hands_back unused_keypress [40; 40] "escape"
           {| _w := Container ["abc"; "aab"; "aaa"; "bcd"; "bdd"] 3;
              looked_field := id; _search := "b" |} "escape" eq_refl).
Defined.

Lemma focus_always_matches_witness :
  let sz := [40; 40] in
  (∀ sz key (w w' : container string) k,
     unused_keypress sz key w = (w', Some k) → w' = w) ∧
  focus_ok
    (keypresses unused_keypress
       [(sz, "b"); (sz, "b"); (sz, "escape"); (sz, "a"); (sz, "a");
        (sz, "backspace")]
       (wrap (Container ["abc"; "aab"; "aaa"; "bcd"; "bdd"] 0) id)).
Proof.
  assert (∀ sz key (w w' : container string) k,
            unused_keypress sz key w = (w', Some k) → w' = w) as Hpass.
  { intros sz key w w' k Heq. injection Heq as <- _. reflexivity. }
  split; [exact Hpass|].
  exact (focus_always_matches unused_keypress
           [([40; 40], "b"); ([40; 40], "b"); ([40; 40], "escape");
            ([40; 40], "a"); ([40; 40], "a"); ([40; 40], "backspace")]
           (Container ["abc"; "aab"; "aaa"; "bcd"; "bdd"] 0) id Hpass).
Defined.

Lemma type_then_backspace_witness :
  let sz := [40; 40] in
  let sw := {| _w := Container ["abc"; "aab"; "aaa"; "bcd"; "bdd"] 0;
               looked_field := id; _search := "a" |} in
  String.length "a" = 1%nat ∧
  (∀ w : container string, unused_keypress sz "a" w = (w, Some "a")) ∧
  (∀ w : container string,
     unused_keypress sz "backspace" w = (w, Some "backspace")) ∧
  matches (search sw +:+ "a") sw ∧
  search (keypress unused_keypress sz "a" sw).1 = search sw +:+ "a" ∧
  search (keypress unused_keypress sz "backspace"
            (keypress unused_keypress sz "a" sw).1).1 = search sw.
Proof.
  assert (matches ("a" +:+ "a")
            {| _w := Container ["abc"; "aab"; "aaa"; "bcd"; "bdd"] 0;
               looked_field := id; _search := "a" |}) as Hm.
  { exists "aab". split; [|reflexivity].
    apply (list_elem_of_lookup_2 _ 1%nat). reflexivity. }
  split; [reflexivity|]. split; [reflexivity|]. split; [reflexivity|].
  split; [exact Hm|].
  exact (type_then_backspace unused_keypress [40; 40] "a"
           {| _w := Container ["abc"; "aab"; "aaa"; "bcd"; "bdd"] 0;
              looked_field := id; _search := "a" |}
           eq_refl (λ _, eq_refl) (λ _, eq_refl) Hm).
Defined.

Lemma backspace_to_empty_focuses_first_witness :
  let sz := [40; 40] in
  let w := Container ["abc"; "aab"; "aaa"; "bcd"; "bdd"] 3 in
  let sw := {| _w := w; looked_field := id; _search := "b" |} in
  unused_keypress sz "backspace" (_w sw) = (w, Some "backspace") ∧
  String.length (search sw) = 1%nat ∧
  items w = "abc" :: ["aab"; "aaa"; "bcd"; "bdd"] ∧
  keypress unused_keypress sz "backspace" sw
  = ({| _w := set_focus 0 w; looked_field := looked_field sw;
        _search := "" |}, None).
Proof.
  split; [reflexivity|]. split; [reflexivity|]. split; [reflexivity|].
  exact (backspace_to_empty_focuses_first unused_keypress [40; 40] "backspace"
           {| _w := Container ["abc"; "aab"; "aaa"; "bcd"; "bdd"] 3;
              looked_field := id; _search := "b" |}
           (Container ["abc"; "aab"; "aaa"; "bcd"; "bdd"] 3)
           "abc" ["aab"; "aaa"; "bcd"; "bdd"] eq_refl eq_refl eq_refl).
Defined.
